(** * Order bot: order / stock / payment reconciliation core

    A shallow embedding of the reconciliation core of the order bot
    ([order_manager.py], [stock_manager.py], [webhook_server.py],
    [config.py]) and the properties of its specification.

    The SQL tables are finite maps and row lists inside one [world]
    record, every function of the source that touches the database is a
    state transformer [io A := world -> A * world], Python integers are
    [Z], Python strings are [string] (ASCII payloads), and dictionaries
    returned to callers are records. *)

From stdpp Require Import base option list strings pretty gmap.
From Stdlib Require Import ZArith Ascii String Lia.

#[local] Open Scope string_scope.
#[local] Open Scope Z_scope.

(** ** Python built-ins used by the source *)

Module Py.

(** [str.isspace] on one ASCII character. *)
Definition is_space (c : ascii) : bool :=
  let n := nat_of_ascii c in
  (((9 <=? n) && (n <=? 13)) || ((28 <=? n) && (n <=? 32)))%nat.

Fixpoint lstrip (s : string) : string :=
  match s with
  | EmptyString => EmptyString
  | String c rest => if is_space c then lstrip rest else s
  end.

Fixpoint rstrip (s : string) : string :=
  match s with
  | EmptyString => EmptyString
  | String c rest =>
      match rstrip rest with
      | EmptyString => if is_space c then EmptyString else String c EmptyString
      | kept => String c kept
      end
  end.

(** [s.strip()] *)
Definition strip (s : string) : string := lstrip (rstrip s).

(** [len(s)] *)
Definition len (s : string) : Z := Z.of_nat (String.length s).

(** [s.split(sep)] for a one-character separator. *)
Fixpoint split (sep : ascii) (s : string) : list string :=
  match s with
  | EmptyString => [EmptyString]
  | String c rest =>
      if Ascii.eqb c sep then EmptyString :: split sep rest
      else match split sep rest with
           | field :: fields => String c field :: fields
           | [] => [String c EmptyString]
           end
  end.

(** [s.startswith(p)] *)
Definition startswith (s p : string) : bool := String.prefix p s.

Definition is_digit (c : ascii) : bool :=
  let n := nat_of_ascii c in ((48 <=? n) && (n <=? 57))%nat.

Definition digit_value (c : ascii) : Z := Z.of_nat (nat_of_ascii c) - 48.

(** The digit part of a decimal literal: digits, single underscores
    only between two digits. *)
Fixpoint int_digits (after_digit : bool) (acc : Z) (s : string) : option Z :=
  match s with
  | EmptyString => if after_digit then Some acc else None
  | String c rest =>
      if is_digit c then int_digits true (10 * acc + digit_value c) rest
      else if Ascii.eqb c "_"%char && after_digit then int_digits false acc rest
      else None
  end.

(** The white space [int] skips around a literal: [Py_ISSPACE], that is
    tab, line feed, vertical tab, form feed, carriage return and space.
    The separators 28 to 31, which [str.strip] removes, are not among
    them. *)
Definition is_c_space (c : ascii) : bool :=
  let n := nat_of_ascii c in
  (((9 <=? n) && (n <=? 13)) || (n =? 32))%nat.

Fixpoint skip_spaces (s : string) : string :=
  match s with
  | EmptyString => EmptyString
  | String c rest => if is_c_space c then skip_spaces rest else s
  end.

Fixpoint drop_trailing_spaces (s : string) : string :=
  match s with
  | EmptyString => EmptyString
  | String c rest =>
      match drop_trailing_spaces rest with
      | EmptyString => if is_c_space c then EmptyString else String c EmptyString
      | kept => String c kept
      end
  end.

(** [int(s)] on an ASCII string; [None] stands for [ValueError]. *)
Definition int (s : string) : option Z :=
  match skip_spaces (drop_trailing_spaces s) with
  | EmptyString => None
  | String "+"%char rest => int_digits false 0 rest
  | String "-"%char rest => Z.opp <$> int_digits false 0 rest
  | body => int_digits false 0 body
  end.

(** [c * n] for a one-character string [c]. *)
Fixpoint repeat_char (c : ascii) (n : nat) : string :=
  match n with
  | O => EmptyString
  | S k => String c (repeat_char c k)
  end.

End Py.

(** ** config.py *)

Record package := {
  quantity : Z;
  price : Z;
  label : string
}.

(** The levels of [logging]. *)
Inductive log_level := DEBUG | INFO | WARNING | ERROR | CRITICAL.

Definition level_number (l : log_level) : Z :=
  match l with
  | DEBUG => 10
  | INFO => 20
  | WARNING => 30
  | ERROR => 40
  | CRITICAL => 50
  end.

(** [LOG_LEVEL] is the level [logger.py] gives the logger:
    [getattr(logging, config.LOG_LEVEL.upper(), logging.INFO)]. *)
Record config := {
  PACKAGE_CONFIG : gmap string package;
  MAX_CODES_PER_ORDER : Z;
  AUTO_DELIVERY_ENABLED : bool;
  ENABLE_ORDER_CANCELLATION : bool;
  ENABLE_REFUND : bool;
  ENCRYPT_STOCK_CODES : bool;
  MIDTRANS_SERVER_KEY : string;
  LOG_LEVEL : log_level
}.

(** [logger.isEnabledFor(level)] *)
Definition isEnabledFor (cfg : config) (level : log_level) : bool :=
  level_number (LOG_LEVEL cfg) <=? level_number level.

(** [str(e)] of the [TypeError] raised by a logging call that passes a
    keyword [Logger._log] does not take.  [logger] is a plain
    [logging.Logger]: [logger.info(msg, key=value)] and its siblings
    return at once when their level is disabled and raise otherwise. *)
Definition unexpected_keyword (key : string) : string :=
  "Logger._log() got an unexpected keyword argument '" +:+ key +:+ "'".

(** The values [config.py] takes when the environment overrides nothing. *)
Definition default_packages : gmap string package :=
  list_to_map
    [ ("1_code",   {| quantity := 1;  price := 15000;  label := "1 Code" |});
      ("5_codes",  {| quantity := 5;  price := 70000;  label := "5 Codes" |});
      ("10_codes", {| quantity := 10; price := 130000; label := "10 Codes" |});
      ("25_codes", {| quantity := 25; price := 300000; label := "25 Codes" |});
      ("50_codes", {| quantity := 50; price := 550000; label := "50 Codes" |}) ].

Definition default_config : config := {|
  PACKAGE_CONFIG := default_packages;
  MAX_CODES_PER_ORDER := 50;
  AUTO_DELIVERY_ENABLED := true;
  ENABLE_ORDER_CANCELLATION := true;
  ENABLE_REFUND := true;
  ENCRYPT_STOCK_CODES := true;
  MIDTRANS_SERVER_KEY := "YOUR_MIDTRANS_SERVER_KEY";
  LOG_LEVEL := INFO
|}.

Definition get_package_info (cfg : config) (package_key : string) : option package :=
  PACKAGE_CONFIG cfg !! package_key.

(** ** Rows of the tables *)

Inductive order_status := pending | completed | failed | cancelled.

Inductive topup_status := topup_pending | topup_success | topup_failed.

#[global] Instance order_status_eq_dec : EqDecision order_status.
Proof. solve_decision. Defined.

#[global] Instance topup_status_eq_dec : EqDecision topup_status.
Proof. solve_decision. Defined.

(** Table [stock].  The timestamps [added_at] and [used_at] are left out. *)
Record stock_row := {
  stock_id : Z;
  code : string;
  code_type : string;
  is_available : bool;
  is_encrypted : bool;
  reserved_for_order : option Z;
  added_by : option Z;
  used_by : option Z
}.

(** Table [orders], without [created_at]. *)
Record order_row := {
  order_id : Z;
  order_number : string;
  user_id : Z;
  package_type : string;
  code_quantity : Z;
  total_price : Z;
  payment_method : string;
  status : order_status;
  delivery_status : option string
}.

(** Table [topups], keyed by the gateway-facing [order_id]. *)
Record topup_row := {
  topup_user_id : Z;
  amount : Z;
  payment_type : string;
  transaction_id : option string;
  topup_state : topup_status
}.

(** The three states of a stock item in the specification, read off the
    two columns the source uses. *)
Inductive item_state := Available | Reserved (o : Z) | Consumed.

Definition state_of (r : stock_row) : item_state :=
  if is_available r
  then match reserved_for_order r with
       | Some o => Reserved o
       | None => Available
       end
  else Consumed.

(** ** Observable effects besides the tables *)

(** One constructor per logging call of the embedded functions. *)
Inductive log_event :=
| log_order_created (number : string) (user : Z) (pkg : string) (paid : Z)
| log_order_completed (number : string) (user : Z) (codes : Z)
| log_order_failed (number : string) (user : Z) (reason : string)
| log_error_with_context (context : string)
| log_info (what : string)
| log_warning (what : string)
| log_error (what : string)
| log_webhook_received (order txn_status pay_type : string)
| log_payment_received (order : string) (user : Z) (paid : Z) (pay_type : string).

(** One call of the delivery collaborator:
    [delivery_handler(user_id=..., order_number=..., codes=...)]. *)
Record delivery_call := {
  call_user : Z;
  call_order_number : string;
  call_codes : list stock_row
}.

(** What the awaited handler does: it returns a dictionary whose
    ['success'] entry is read, or it raises. *)
Inductive handler_outcome := returns (success : bool) | raises.

Definition delivery_handler := delivery_call -> handler_outcome.

(** ** The world: tables, logger output, delivery calls made *)

Record world := {
  users : gmap Z Z;
  stock : list stock_row;
  orders : list order_row;
  topups : gmap string topup_row;
  next_stock_id : Z;
  next_order_id : Z;
  logged : list log_event;
  delivered : list delivery_call
}.

Definition io (A : Type) : Type := world -> A * world.

#[global] Instance io_ret : MRet io := fun A a w => (a, w).

#[global] Instance io_bind : MBind io :=
  fun A B k m w => let '(a, w') := m w in k a w'.

Definition with_users (f : gmap Z Z -> gmap Z Z) (w : world) : world :=
  {| users := f (users w); stock := stock w; orders := orders w;
     topups := topups w; next_stock_id := next_stock_id w;
     next_order_id := next_order_id w; logged := logged w;
     delivered := delivered w |}.

Definition with_stock (f : list stock_row -> list stock_row) (w : world) : world :=
  {| users := users w; stock := f (stock w); orders := orders w;
     topups := topups w; next_stock_id := next_stock_id w;
     next_order_id := next_order_id w; logged := logged w;
     delivered := delivered w |}.

Definition with_orders (f : list order_row -> list order_row) (w : world) : world :=
  {| users := users w; stock := stock w; orders := f (orders w);
     topups := topups w; next_stock_id := next_stock_id w;
     next_order_id := next_order_id w; logged := logged w;
     delivered := delivered w |}.

Definition with_topups (f : gmap string topup_row -> gmap string topup_row)
    (w : world) : world :=
  {| users := users w; stock := stock w; orders := orders w;
     topups := f (topups w); next_stock_id := next_stock_id w;
     next_order_id := next_order_id w; logged := logged w;
     delivered := delivered w |}.

(** A logging call appends one event. *)
Definition log (e : log_event) : io unit := fun w =>
  (tt, {| users := users w; stock := stock w; orders := orders w;
          topups := topups w; next_stock_id := next_stock_id w;
          next_order_id := next_order_id w; logged := logged w ++ [e];
          delivered := delivered w |}).

(** Awaiting the handler: the call is recorded and its outcome returned. *)
Definition call_handler (h : delivery_handler) (c : delivery_call)
    : io handler_outcome := fun w =>
  (h c, {| users := users w; stock := stock w; orders := orders w;
           topups := topups w; next_stock_id := next_stock_id w;
           next_order_id := next_order_id w; logged := logged w;
           delivered := delivered w ++ [c] |}).

(** ** database.py

    The storage layer is not part of the sources at hand; its primitives
    follow sections 3 and 4 of the specification and the way the callers
    use their results. *)

Module database.

(** Modelled from the spec: [database.get_balance] is missing; section 4.1
    [GetBalance] returns 0 for unknown users. *)
Definition get_balance (user : Z) : io Z := fun w =>
  (default 0 (users w !! user), w).

(** Modelled from the spec: [database.add_balance] is missing; section 4.1
    [AddBalance] fails when [amount <= 0] (the callers test the result
    against [None]) and otherwise returns the new balance; accounts are
    created lazily. *)
Definition add_balance (user : Z) (amount : Z) : io (option Z) := fun w =>
  if amount <=? 0 then (None, w)
  else
    let new_balance := default 0 (users w !! user) + amount in
    (Some new_balance, with_users (insert user new_balance) w).

(** Modelled from the spec: [database.deduct_balance] is missing; section
    4.1 [DeductBalance] returns false without mutation when the balance is
    below [amount], otherwise subtracts and returns true. *)
Definition deduct_balance (user : Z) (amount : Z) : io bool := fun w =>
  let balance := default 0 (users w !! user) in
  if balance <? amount then (false, w)
  else (true, with_users (insert user (balance - amount)) w).

(** Modelled from the spec: [database.create_order] is missing; section
    4.3 step (3) inserts the Order row in state Pending and section 3
    gives the format [ORD-<user>-<timestamp>-<rand>] of its number, whose
    last two parts are [stamp]. *)
Definition create_order (stamp : string) (user : Z) (pkg : string)
    (qty total : Z) (method : string) : io (Z * string) := fun w =>
  let oid := next_order_id w in
  let number := "ORD-" +:+ pretty user +:+ "-" +:+ stamp in
  let row := {| order_id := oid; order_number := number; user_id := user;
                package_type := pkg; code_quantity := qty;
                total_price := total; payment_method := method;
                status := pending; delivery_status := None |} in
  ((oid, number),
   {| users := users w; stock := stock w; orders := orders w ++ [row];
      topups := topups w; next_stock_id := next_stock_id w;
      next_order_id := oid + 1; logged := logged w;
      delivered := delivered w |}).

(** Modelled from the spec: [database.get_order_by_id] is missing; the
    row of that id, if any. *)
Definition get_order_by_id (oid : Z) : io (option order_row) := fun w =>
  (List.find (fun o => order_id o =? oid) (orders w), w).

Definition set_order_status (s : order_status) (ds : option string)
    (o : order_row) : order_row :=
  {| order_id := order_id o; order_number := order_number o;
     user_id := user_id o; package_type := package_type o;
     code_quantity := code_quantity o; total_price := total_price o;
     payment_method := payment_method o; status := s;
     delivery_status := match ds with
                        | Some _ => ds
                        | None => delivery_status o
                        end |}.

(** Modelled from the spec: [database.update_order_status] is missing; it
    writes [status] and, when given, [delivery_status] of the order. *)
Definition update_order_status (oid : Z) (s : order_status)
    (ds : option string) : io unit := fun w =>
  (tt, with_orders
         (map (fun o => if order_id o =? oid then set_order_status s ds o else o))
         w).

(** The code type the callers leave to its default. *)
Definition default_code_type : string := "redfinger".

(** An item that is neither reserved nor consumed, of the given type. *)
Definition is_free (ctype : string) (r : stock_row) : bool :=
  is_available r && bool_decide (reserved_for_order r = None)
  && String.eqb (code_type r) ctype.

Definition set_reserved (o : option Z) (r : stock_row) : stock_row :=
  {| stock_id := stock_id r; code := code r; code_type := code_type r;
     is_available := is_available r; is_encrypted := is_encrypted r;
     reserved_for_order := o; added_by := added_by r; used_by := used_by r |}.

(** Claims up to [n] free rows for [oid], in table order. *)
Fixpoint reserve_rows (oid : Z) (ctype : string) (n : nat)
    (rows : list stock_row) : list Z * list stock_row :=
  match rows with
  | [] => ([], [])
  | r :: rest =>
      match n with
      | O => ([], rows)
      | S k =>
          if is_free ctype r
          then let '(ids, rest') := reserve_rows oid ctype k rest in
               (stock_id r :: ids, set_reserved (Some oid) r :: rest')
          else let '(ids, rest') := reserve_rows oid ctype n rest in
               (ids, r :: rest')
      end
  end.

(** Modelled from the spec: [database.reserve_stock_codes] is missing;
    section 4.2 [ReserveCodes] selects up to [count] Available items of the
    type, flips them to Reserved(orderID) and returns their ids, a short
    list when fewer are available. *)
Definition reserve_stock_codes (oid : Z) (count : Z) : io (list Z) := fun w =>
  let '(ids, rows) := reserve_rows oid default_code_type (Z.to_nat count) (stock w) in
  (ids, with_stock (fun _ => rows) w).

(** Modelled from the spec: [database.get_available_stock_count] is
    missing; section 4.2 [CountAvailable]. *)
Definition get_available_stock_count : io Z := fun w =>
  (Z.of_nat (List.length (List.filter (is_free default_code_type) (stock w))), w).

Definition is_reserved_for (oid : Z) (r : stock_row) : bool :=
  is_available r && bool_decide (reserved_for_order r = Some oid).

(** Modelled from the spec: [database.get_reserved_codes] is missing;
    the items in state Reserved(orderID). *)
Definition get_reserved_codes (oid : Z) : io (list stock_row) := fun w =>
  (List.filter (is_reserved_for oid) (stock w), w).

Definition set_used (user : Z) (r : stock_row) : stock_row :=
  {| stock_id := stock_id r; code := code r; code_type := code_type r;
     is_available := false; is_encrypted := is_encrypted r;
     reserved_for_order := reserved_for_order r; added_by := added_by r;
     used_by := Some user |}.

(** Modelled from the spec: [database.mark_codes_as_used] is missing;
    section 4.2 [ConsumeReserved] flips the items to Consumed. *)
Definition mark_codes_as_used (ids : list Z) (user : Z) : io unit := fun w =>
  (tt, with_stock
         (map (fun r => if bool_decide (stock_id r ∈ ids) then set_used user r else r))
         w).

(** Modelled from the spec: [database.add_stock_code] is missing; section
    4.2 [AddCode] persists one Available item and returns its id. *)
Definition add_stock_code (payload ctype : string) (by_user : option Z)
    (encrypted : bool) : io Z := fun w =>
  let sid := next_stock_id w in
  let row := {| stock_id := sid; code := payload; code_type := ctype;
                is_available := true; is_encrypted := encrypted;
                reserved_for_order := None; added_by := by_user;
                used_by := None |} in
  (sid,
   {| users := users w; stock := stock w ++ [row]; orders := orders w;
      topups := topups w; next_stock_id := sid + 1;
      next_order_id := next_order_id w; logged := logged w;
      delivered := delivered w |}).

Definition set_topup_state (s : topup_status) (t : topup_row) : topup_row :=
  {| topup_user_id := topup_user_id t; amount := amount t;
     payment_type := payment_type t; transaction_id := transaction_id t;
     topup_state := s |}.

(** Modelled from the spec: [database.create_topup] is missing; section
    4.4 upserts the Topup row, and the insert statement patched by
    [fix_db.py] creates it with status pending.  An existing row keeps
    its status. *)
Definition create_topup (user : Z) (amt : Z) (oid : string) (ptype : string)
    (txn : option string) : io unit := fun w =>
  let st := match topups w !! oid with
            | Some t => topup_state t
            | None => topup_pending
            end in
  (tt, with_topups
         (insert oid {| topup_user_id := user; amount := amt;
                        payment_type := ptype; transaction_id := txn;
                        topup_state := st |})
         w).

(** Modelled from the spec: [database.update_topup_status] is missing;
    section 4.4 updates the status of the Topup row (if it exists) and
    never touches the Ledger. *)
Definition update_topup_status (oid : string) (s : topup_status) : io unit :=
  fun w => (tt, with_topups (alter (set_topup_state s) oid) w).

End database.

Import database.

(** ** order_manager.py

    The timing wrapper [PerformanceLogger] is left out, and so are the
    catch-all [except] branches that no step of the embedding can reach
    (the storage primitives above are total).  Two logging calls of the
    module pass keywords the logger does not take; where their level is
    enabled they raise and the [except] branch of the function answers. *)

(** The error messages of order validation and creation; the formatted
    ones carry the numbers they print. *)
Inductive order_error :=
| invalid_package (pkg : string)
| too_many_codes (limit : Z)
| insufficient_balance (need have : Z)
| insufficient_stock (need available : Z)
| deduct_failed
| record_failed
| reserve_failed (got wanted : Z)
| creation_raised.

Record validation := {
  valid : bool;
  validation_error : option order_error
}.

Definition validate_order_request (cfg : config) (user : Z) (pkg : string)
    : io validation :=
  match get_package_info cfg pkg with
  | None => mret {| valid := false; validation_error := Some (invalid_package pkg) |}
  | Some info =>
      if MAX_CODES_PER_ORDER cfg <? quantity info
      then mret {| valid := false;
                   validation_error := Some (too_many_codes (MAX_CODES_PER_ORDER cfg)) |}
      else
        balance ← get_balance user;
        if balance <? price info
        then mret {| valid := false;
                     validation_error :=
                       Some (insufficient_balance (price info) balance) |}
        else
          available_stock ← get_available_stock_count;
          if available_stock <? quantity info
          then mret {| valid := false;
                       validation_error :=
                         Some (insufficient_stock (quantity info) available_stock) |}
          else mret {| valid := true; validation_error := None |}
  end.

(** What a call of [create_new_order] takes from its surroundings: the
    writes of the other entry points that land between the reads of
    [validate_order_request] and the debit (the window section 4.3 of the
    specification names), and the clock and random part of the order
    number. *)
Record environment := {
  concurrent : world -> world;
  stamp : string
}.

Definition interleave (env : environment) : io unit := fun w =>
  (tt, concurrent env w).

Record creation := {
  c_success : bool;
  c_order_id : option Z;
  c_order_number : option string;
  c_error : option order_error
}.

Definition creation_failure (e : order_error) : creation :=
  {| c_success := false; c_order_id := None; c_order_number := None;
     c_error := Some e |}.

Definition create_new_order (cfg : config) (env : environment) (user : Z)
    (pkg : string) (method : string) : io creation :=
  v ← validate_order_request cfg user pkg;
  if negb (valid v)
  then mret {| c_success := false; c_order_id := None; c_order_number := None;
               c_error := validation_error v |}
  else
    match get_package_info cfg pkg with
    | None =>
        log (log_error_with_context "create_new_order");;
        mret (creation_failure creation_raised)
    | Some info =>
        interleave env;;
        balance_deducted ← deduct_balance user (price info);
        if negb balance_deducted
        then mret (creation_failure deduct_failed)
        else
          '(oid, number) ← create_order (stamp env) user pkg (quantity info)
                              (price info) method;
          if oid =? 0
          then
            add_balance user (price info);;
            mret (creation_failure record_failed)
          else
            stock_ids ← reserve_stock_codes oid (quantity info);
            if Z.of_nat (List.length stock_ids) <? quantity info
            then
              add_balance user (price info);;
              update_order_status oid failed (Some "stock_unavailable");;
              mret {| c_success := false; c_order_id := Some oid;
                      c_order_number := Some number;
                      c_error := Some (reserve_failed
                                         (Z.of_nat (List.length stock_ids))
                                         (quantity info)) |}
            else
              log (log_order_created number user pkg (price info));;
              mret {| c_success := true; c_order_id := Some oid;
                      c_order_number := Some number; c_error := None |}
    end.

Record process_result := {
  p_success : bool;
  p_delivered : bool;
  p_error : option string;
  p_manual_delivery_required : bool;
  p_retry_possible : bool
}.

(** [process_order(order_id, delivery_handler)].  The warning about a
    quantity mismatch is [logger.warning(..., order_id=order_id)]: where
    warnings are enabled it raises [TypeError] before the delivery step,
    and the [except] branch of the function answers. *)
Definition process_order (cfg : config) (handler : option delivery_handler)
    (oid : Z) : io process_result :=
  order ← get_order_by_id oid;
  match order with
  | None =>
      mret {| p_success := false; p_delivered := false;
              p_error := Some "Order not found";
              p_manual_delivery_required := false; p_retry_possible := false |}
  | Some o =>
      if bool_decide (status o = completed)
      then mret {| p_success := true; p_delivered := true; p_error := None;
                   p_manual_delivery_required := false;
                   p_retry_possible := false |}
      else
        codes ← get_reserved_codes oid;
        match codes with
        | [] =>
            log (log_order_failed (order_number o) (user_id o) "No codes reserved");;
            update_order_status oid failed (Some "no_codes");;
            mret {| p_success := false; p_delivered := false;
                    p_error := Some "No codes reserved for this order";
                    p_manual_delivery_required := false;
                    p_retry_possible := false |}
        | _ =>
            if negb (Z.of_nat (List.length codes) =? code_quantity o)
               && isEnabledFor cfg WARNING
            then
              log (log_error_with_context "process_order");;
              mret {| p_success := false; p_delivered := false;
                      p_error := Some ("Processing failed: "
                                       +:+ unexpected_keyword "order_id");
                      p_manual_delivery_required := false;
                      p_retry_possible := false |}
            else
              match handler with
              | Some h =>
                  if AUTO_DELIVERY_ENABLED cfg
                  then
                    outcome ← call_handler h
                                {| call_user := user_id o;
                                   call_order_number := order_number o;
                                   call_codes := codes |};
                    delivery_success ←
                      match outcome with
                      | returns b => mret b
                      | raises =>
                          log (log_error_with_context "delivery_handler");;
                          mret false
                      end;
                    if delivery_success : bool
                    then
                      mark_codes_as_used (map stock_id codes) (user_id o);;
                      update_order_status oid completed (Some "delivered");;
                      log (log_order_completed (order_number o) (user_id o)
                             (Z.of_nat (List.length codes)));;
                      mret {| p_success := true; p_delivered := true;
                              p_error := None;
                              p_manual_delivery_required := false;
                              p_retry_possible := false |}
                    else
                      update_order_status oid pending (Some "delivery_failed");;
                      log (log_order_failed (order_number o) (user_id o)
                             "Delivery failed");;
                      mret {| p_success := false; p_delivered := false;
                              p_error := Some "Delivery failed";
                              p_manual_delivery_required := false;
                              p_retry_possible := true |}
                  else
                    update_order_status oid pending (Some "pending_manual_delivery");;
                    mret {| p_success := true; p_delivered := false;
                            p_error := None;
                            p_manual_delivery_required := true;
                            p_retry_possible := false |}
              | None =>
                  update_order_status oid pending (Some "pending_manual_delivery");;
                  mret {| p_success := true; p_delivered := false;
                          p_error := None;
                          p_manual_delivery_required := true;
                          p_retry_possible := false |}
              end
        end
  end.

Record cancellation := {
  x_success : bool;
  x_refunded : bool;
  x_error : option string
}.

(** The [UPDATE stock SET reserved_for_order = NULL WHERE
    reserved_for_order = ?] statement of [cancel_order]. *)
Definition release_reservation (oid : Z) : io unit := fun w =>
  (tt, with_stock
         (map (fun r => if bool_decide (reserved_for_order r = Some oid)
                        then set_reserved None r else r))
         w).

(** [cancel_order(order_id, reason, refund)].  The last statement before
    the successful return is [logger.info(..., reason=reason,
    refunded=refunded)]: where the level INFO is enabled it raises
    [TypeError] after the release, the refund and the status write, and
    the [except] branch of the function answers. *)
Definition cancel_order (cfg : config) (oid : Z) (refund : bool)
    : io cancellation :=
  if negb (ENABLE_ORDER_CANCELLATION cfg)
  then mret {| x_success := false; x_refunded := false;
               x_error := Some "Order cancellation is disabled" |}
  else
    order ← get_order_by_id oid;
    match order with
    | None => mret {| x_success := false; x_refunded := false;
                      x_error := Some "Order not found" |}
    | Some o =>
        if bool_decide (status o = completed)
        then mret {| x_success := false; x_refunded := false;
                     x_error := Some "Cannot cancel completed order" |}
        else if bool_decide (status o = cancelled)
        then mret {| x_success := false; x_refunded := false;
                     x_error := Some "Order already cancelled" |}
        else
          release_reservation oid;;
          refunded ←
            (if refund && ENABLE_REFUND cfg
                && String.eqb (payment_method o) "balance"
             then
               new_balance ← add_balance (user_id o) (total_price o);
               match new_balance with
               | Some _ => log (log_info "Refunded");; mret true
               | None => mret false
               end
             else mret false);
          update_order_status oid cancelled None;;
          if isEnabledFor cfg INFO
          then
            log (log_error_with_context "cancel_order");;
            mret {| x_success := false; x_refunded := false;
                    x_error := Some ("Cancellation failed: "
                                     +:+ unexpected_keyword "reason") |}
          else
            mret {| x_success := true; x_refunded := refunded; x_error := None |}
    end.

Inductive retry_result :=
| retry_not_found
| retry_already_completed
| retry_processed (r : process_result).

Definition retry_order_delivery (cfg : config) (handler : delivery_handler)
    (oid : Z) : io retry_result :=
  order ← get_order_by_id oid;
  match order with
  | None => mret retry_not_found
  | Some o =>
      if bool_decide (status o = completed)
      then mret retry_already_completed
      else
        result ← process_order cfg (Some handler) oid;
        mret (retry_processed result)
  end.

(** ** stock_manager.py *)

(** The module-level [_encryptor].  [fernet] is [None] when the cipher
    could not be initialised; otherwise it maps a code to
    [base64.urlsafe_b64encode(self.fernet.encrypt(code.encode())).decode()],
    or to [None] when that expression raises. *)
Record StockEncryption := {
  fernet : option (string -> option string)
}.

Definition encrypt (cfg : config) (self : StockEncryption) (payload : string)
    : io string :=
  match fernet self with
  | None => mret payload
  | Some cipher =>
      if negb (ENCRYPT_STOCK_CODES cfg) then mret payload
      else match cipher payload with
           | Some token => mret token
           | None => log (log_error "Encryption failed");; mret payload
           end
  end.

Record addition := {
  a_success : bool;
  a_stock_id : option Z;
  a_error : option string
}.

Definition add_single_code (cfg : config) (encryptor : StockEncryption)
    (payload : string) (ctype : string) (by_user : option Z) : io addition :=
  let payload := Py.strip payload in
  if String.eqb payload ""
  then mret {| a_success := false; a_stock_id := None;
               a_error := Some "Empty code" |}
  else if Py.len payload <? 5
  then mret {| a_success := false; a_stock_id := None;
               a_error := Some "Code too short" |}
  else
    '(stored, encrypted) ←
      (if ENCRYPT_STOCK_CODES cfg
       then token ← encrypt cfg encryptor payload; mret (token, true)
       else mret (payload, false));
    sid ← add_stock_code stored ctype by_user encrypted;
    if negb (sid =? 0)
    then mret {| a_success := true; a_stock_id := Some sid; a_error := None |}
    else mret {| a_success := false; a_stock_id := None;
                 a_error := Some "Failed to add code to database" |}.

Record code_check := {
  code_valid : bool;
  code_error : option string
}.

Definition validate_stock_code (payload : string) : code_check :=
  let payload := Py.strip payload in
  if String.eqb payload ""
  then {| code_valid := false; code_error := Some "Empty code" |}
  else if Py.len payload <? 5
  then {| code_valid := false;
          code_error := Some "Code too short (min 5 characters)" |}
  else if 500 <? Py.len payload
  then {| code_valid := false;
          code_error := Some "Code too long (max 500 characters)" |}
  else {| code_valid := true; code_error := None |}.

(** ** payment_gateway.py and webhook_server.py *)

(** The JSON object of a gateway notification; its members are strings. *)
Abbreviation notification := (gmap string string).

Inductive payment_status := payment_success | payment_pending | payment_failed.

Record parsed_notification := {
  parsed_valid : bool;
  parsed_order_id : string;
  parsed_status : payment_status;
  parsed_gross_amount : string;
  parsed_transaction_status : string;
  parsed_payment_type : option string;
  parsed_transaction_id : option string
}.

Definition rejected_notification : parsed_notification :=
  {| parsed_valid := false; parsed_order_id := "";
     parsed_status := payment_failed; parsed_gross_amount := "";
     parsed_transaction_status := ""; parsed_payment_type := None;
     parsed_transaction_id := None |}.

(** Modelled from the spec: the status mapping of
    [payment_gateway.parse_webhook_notification] is missing; section 4.4
    maps the gateway's vocabulary to success, pending and failed, and
    [trigger.py] names the words (settlement and capture; pending; deny,
    cancel and expire). *)
Definition map_transaction_status (s : string) : payment_status :=
  if String.eqb s "settlement" || String.eqb s "capture" then payment_success
  else if String.eqb s "pending" then payment_pending
  else payment_failed.

(** Modelled from the spec: [payment_gateway.parse_webhook_notification]
    is missing; section 4.4 [VerifyWebhook] rejects a notification with a
    missing required field or whose [signature_key] differs from the
    digest of [order_id ‖ status_code ‖ gross_amount ‖ server_key].  The
    digest function is [sha512]. *)
Definition parse_webhook_notification (sha512 : string -> string)
    (n : notification) (server_key : string) : parsed_notification :=
  match n !! "order_id", n !! "status_code", n !! "gross_amount",
        n !! "signature_key", n !! "transaction_status" with
  | Some oid, Some status_code, Some gross, Some signature, Some txn_status =>
      if String.eqb (sha512 (oid +:+ status_code +:+ gross +:+ server_key)) signature
      then {| parsed_valid := true; parsed_order_id := oid;
              parsed_status := map_transaction_status txn_status;
              parsed_gross_amount := gross;
              parsed_transaction_status := txn_status;
              parsed_payment_type := n !! "payment_type";
              parsed_transaction_id := n !! "transaction_id" |}
      else rejected_notification
  | _, _, _, _, _ => rejected_notification
  end.

Definition notify_user_payment_success (user : Z) (amt : Z) (oid : string)
    : io unit :=
  log (log_info "User should be notified of payment success").

(** The [SELECT status FROM topups WHERE order_id = ?] of
    [handle_payment_success]. *)
Definition select_topup_status (oid : string) : io (option topup_status) :=
  fun w => (topup_state <$> topups w !! oid, w).

Definition handle_payment_success (oid : string) (amt : Z)
    (parsed_data : parsed_notification) : io bool :=
  let parts := Py.split "-"%char oid in
  if Z.of_nat (List.length parts) <? 3
  then log (log_error "Invalid order_id format");; mret false
  else
    match Py.int (nth 1 parts "") with
    | None => log (log_error "Cannot extract user_id");; mret false
    | Some user =>
        if Py.startswith oid "TOPUP-"
        then
          existing_status ← select_topup_status oid;
          if bool_decide (existing_status = Some topup_success)
          then log (log_warning "Payment already processed");; mret true
          else
            create_topup user amt oid
              (default "qris" (parsed_payment_type parsed_data))
              (parsed_transaction_id parsed_data);;
            new_balance ← add_balance user amt;
            match new_balance with
            | Some _ =>
                update_topup_status oid topup_success;;
                log (log_payment_received oid user amt
                       (default "qris" (parsed_payment_type parsed_data)));;
                log (log_info "Balance credited");;
                notify_user_payment_success user amt oid;;
                mret true
            | None =>
                log (log_error "Failed to credit balance");;
                update_topup_status oid topup_failed;;
                mret false
            end
        else
          log (log_info "Order payment detected");;
          update_topup_status oid topup_success;;
          mret true
    end.

(** What [request.get_json()] does with the request: it raises (Flask
    answers an unparseable body with an exception), returns [None], or
    returns the parsed object. *)
Inductive request_json :=
| get_json_raises
| get_json_none
| get_json_object (n : notification).

Record response := {
  http_code : Z;
  body_status : string;
  body_message : string
}.

Definition midtrans_webhook (sha512 : string -> string) (cfg : config)
    (request : request_json) : io response :=
  match request with
  | get_json_raises =>
      log (log_error_with_context "midtrans_webhook");;
      mret {| http_code := 200; body_status := "error";
              body_message := "Internal server error" |}
  | get_json_none =>
      log (log_warning "Webhook received with no JSON data");;
      mret {| http_code := 400; body_status := "error";
              body_message := "No JSON data received" |}
  | get_json_object n =>
      if bool_decide (n = ∅)
      then
        log (log_warning "Webhook received with no JSON data");;
        mret {| http_code := 400; body_status := "error";
                body_message := "No JSON data received" |}
      else
        log (log_webhook_received
               (default "unknown" (n !! "order_id"))
               (default "unknown" (n !! "transaction_status"))
               (default "unknown" (n !! "payment_type")));;
        let parsed := parse_webhook_notification sha512 n (MIDTRANS_SERVER_KEY cfg) in
        if negb (parsed_valid parsed)
        then
          log (log_error "Invalid webhook notification");;
          mret {| http_code := 400; body_status := "error";
                  body_message := "Invalid signature or missing fields" |}
        else
          match Py.int (parsed_gross_amount parsed) with
          | None =>
              log (log_error_with_context "midtrans_webhook");;
              mret {| http_code := 200; body_status := "error";
                      body_message := "Internal server error" |}
          | Some gross_amount =>
              log (log_info "Webhook");;
              match parsed_status parsed with
              | payment_success =>
                  handle_payment_success (parsed_order_id parsed) gross_amount parsed;;
                  mret tt
              | payment_pending =>
                  log (log_info "Payment pending");;
                  update_topup_status (parsed_order_id parsed) topup_pending
              | payment_failed =>
                  log (log_warning "Payment failed");;
                  update_topup_status (parsed_order_id parsed) topup_failed
              end;;
              mret {| http_code := 200; body_status := "success";
                      body_message := "Notification processed" |}
          end
  end.

(** [n] deliveries of the same success notification, one after the
    other; the results are in delivery order. *)
Fixpoint deliveries (n : nat) (oid : string) (amt : Z)
    (parsed_data : parsed_notification) : io (list bool) :=
  match n with
  | O => mret []
  | S k =>
      first ← handle_payment_success oid amt parsed_data;
      others ← deliveries k oid amt parsed_data;
      mret (first :: others)
  end.

(** ** Observations and sample data used by the statements *)

Definition balance_of (user : Z) (w : world) : Z := default 0 (users w !! user).

Definition find_order (oid : Z) (w : world) : option order_row :=
  fst (get_order_by_id oid w).

Definition reserved_codes (oid : Z) (w : world) : list stock_row :=
  fst (get_reserved_codes oid w).

Definition empty_world : world :=
  {| users := ∅; stock := []; orders := []; topups := ∅;
     next_stock_id := 1; next_order_id := 1; logged := []; delivered := [] |}.

Definition fresh_code (i : Z) : stock_row :=
  {| stock_id := i; code := "RF-CODE-" +:+ pretty i; code_type := "redfinger";
     is_available := true; is_encrypted := false; reserved_for_order := None;
     added_by := Some 1; used_by := None |}.

(** User 42 holds 100,000 and [n] codes are available. *)
Definition shop (n : nat) : world :=
  {| users := {[ 42 := 100000 ]};
     stock := map (fun i => fresh_code (Z.of_nat i)) (seq 1 n);
     orders := []; topups := ∅;
     next_stock_id := Z.of_nat n + 1; next_order_id := 1;
     logged := []; delivered := [] |}.

(** No other entry point writes during order creation. *)
Definition quiet : environment :=
  {| concurrent := fun w => w; stamp := "20240101000000-1234" |}.

(** Another buyer takes two codes for order 77 inside the window. *)
Definition rival : environment :=
  {| concurrent := fun w => snd (reserve_stock_codes 77 2 w);
     stamp := "20240101000000-1234" |}.

Definition always_delivers : delivery_handler := fun _ => returns true.
Definition crashes : delivery_handler := fun _ => raises.

(** The shop after user 42 has bought the package ["5_codes"]. *)
Definition shop_with_order : world :=
  snd (create_new_order default_config quiet 42 "5_codes" "balance" (shop 5)).

(** The order of [shop_with_order], delivered. *)
Definition shop_after_delivery : world :=
  snd (process_order default_config (Some always_delivers) 1 shop_with_order).

(** The call [process_order] makes for order [o] with the codes [codes]. *)
Definition delivery_of (o : order_row) (codes : list stock_row) : delivery_call :=
  {| call_user := user_id o; call_order_number := order_number o;
     call_codes := codes |}.

(** User 42 orders one code while a rival takes the whole stock inside
    the window: the order is recorded as failed and holds no code. *)
Definition shop_with_failed_order : world :=
  snd (create_new_order default_config rival 42 "1_code" "balance" (shop 2)).

(** User 42 orders five codes while a rival takes two of the five inside
    the window: the order is recorded as failed and holds three codes. *)
Definition shop_with_partial_order : world :=
  snd (create_new_order default_config rival 42 "5_codes" "balance" (shop 5)).

(** The user id [handle_payment_success] reads out of an order id. *)
Definition encoded_user (oid : string) : option Z :=
  let parts := Py.split "-"%char oid in
  if Z.of_nat (List.length parts) <? 3 then None
  else Py.int (nth 1 parts "").

Definition topup_status_of (oid : string) (w : world) : option topup_status :=
  fst (select_topup_status oid w).

(** The notification of the double-delivery scenario: top-up
    [TOPUP-42-20240101000000] of 50,000 paid by QRIS. *)
Definition paid_50000 : parsed_notification :=
  {| parsed_valid := true; parsed_order_id := "TOPUP-42-20240101000000";
     parsed_status := payment_success; parsed_gross_amount := "50000";
     parsed_transaction_status := "settlement";
     parsed_payment_type := Some "qris";
     parsed_transaction_id := Some "txn-1" |}.



(** [request.get_json()] gave nothing to work on: [None] or an empty
    object. *)
Definition no_data (request : request_json) : bool :=
  match request with
  | get_json_raises => false
  | get_json_none => true
  | get_json_object n => bool_decide (n = ∅)
  end.

(** The notification does not verify: a required field is missing or the
    signature does not match. *)
Definition does_not_verify (sha512 : string -> string) (cfg : config)
    (request : request_json) : bool :=
  match request with
  | get_json_object n =>
      negb (parsed_valid (parse_webhook_notification sha512 n (MIDTRANS_SERVER_KEY cfg)))
  | _ => false
  end.

(** A settlement notification that carries every field but the
    signature. *)
Definition unsigned_notification : notification :=
  list_to_map
    [ ("order_id", "TOPUP-42-20240101000000"); ("status_code", "200");
      ("gross_amount", "50000"); ("transaction_status", "settlement");
      ("payment_type", "qris"); ("transaction_id", "txn-1") ].

(** The cipher was never initialised. *)
Definition no_cipher : StockEncryption := {| fernet := None |}.

(** The cipher raises on every code. *)
Definition broken_cipher : StockEncryption := {| fernet := Some (fun _ => None) |}.

(** Encryption of [payload] degrades to plaintext: there is no cipher, or
    the cipher raises. *)
Definition encryption_fails (self : StockEncryption) (payload : string) : Prop :=
  match fernet self with
  | None => True
  | Some cipher => cipher payload = None
  end.

(** ** order_manager.py: the sweep over pending orders *)






(** ** config.py: the settings of stock management and masking *)




Fixpoint string_drop (n : nat) (s : string) : string :=
  match n, s with
  | S k, String _ rest => string_drop k rest
  | _, _ => s
  end.





(** ** stock_manager.py: bulk addition *)










(** ** stock_manager.py: reading codes back *)






(** ** stock_manager.py: statistics *)









(** ** Observations for the further properties *)






(** ** trigger.py: the notifications of the test trigger *)












(** ** bot.py: the Confirm button *)


(** A wrapper whose delivery never succeeds. *)
Definition never_delivers : delivery_handler := fun _ => returns false.

(** ** delivery_handler.py *)

(** The dictionary a sender returns. *)
Record delivery_result := {
  d_success : bool;
  d_method : string;
  d_error : option string
}.

(** What a delivery leaves behind, in order: the senders it awaited, the
    pauses of the retry loop, and the failure the loop records with
    [log_delivery_failed] and [record_delivery]. *)
Inductive delivery_event :=
| awaited (sender : string)
| slept (seconds : Z)
| recorded_failed (method : string) (error : option string).

(** Discord as the senders [deliver_via_dm], [deliver_via_file] and
    [deliver_via_channel] meet it: what the call of a sender returns,
    given what happened before.  Each of the three catches every
    exception and returns a dictionary. *)
Definition discord := string -> list delivery_event -> delivery_result.

Definition delivering (A : Type) : Type :=
  list delivery_event -> A * list delivery_event.

Definition deliver_via (net : discord) (sender : string)
    : delivering delivery_result :=
  fun h => (net sender h, (h ++ [awaited sender])%list).

Definition deliver_via_dm (net : discord) : delivering delivery_result :=
  deliver_via net "dm".

Definition deliver_via_file (net : discord) : delivering delivery_result :=
  deliver_via net "file".

Definition deliver_via_channel (net : discord) : delivering delivery_result :=
  deliver_via net "channel".

(** [smart_delivery(bot, user_id, order_number, codes)].  No sender
    raises, so neither handler of the function is entered. *)
Definition smart_delivery (net : discord) (codes : list stock_row)
    : delivering delivery_result := fun h =>
  let file_then_channel h0 :=
    let '(result, h1) := deliver_via_file net h0 in
    if d_success result then (result, h1)
    else deliver_via_channel net h1 in
  if Z.of_nat (List.length codes) <=? 10
  then let '(result, h1) := deliver_via_dm net h in
       if d_success result then (result, h1)
       else file_then_channel h1
  else file_then_channel h.

Record delivery_settings := {
  DELIVERY_METHOD : string;
  DELIVERY_RETRY_ATTEMPTS : Z
}.

(** [DELIVERY_METHOD] is ['dm'] and [DELIVERY_RETRY_ATTEMPTS] is 3 unless
    the environment says otherwise. *)
Definition default_delivery_settings : delivery_settings :=
  {| DELIVERY_METHOD := "dm"; DELIVERY_RETRY_ATTEMPTS := 3 |}.

Record delivery_report := {
  t_success : bool;
  t_attempts : Z;
  t_method : string;
  t_error : option string
}.

(** [deliver_with_retry] returns a report, or it raises
    [UnboundLocalError] where it reads [method] before the loop has
    assigned it.  [unfinished] is the loop cut short of its exit. *)
Inductive retry_outcome :=
| reported (r : delivery_report)
| unbound_method
| unfinished.

(** The [if method == 'dm' ... else] cascade of the loop body. *)
Definition dispatch (net : discord) (method : string) (codes : list stock_row)
    : delivering delivery_result :=
  if String.eqb method "dm" then deliver_via_dm net
  else if String.eqb method "channel" then deliver_via_channel net
  else if String.eqb method "file" then deliver_via_file net
  else smart_delivery net codes.

(** The [while attempts < max_attempts] loop and the code after it.
    [method] is [None] as long as the loop has not assigned it; [rounds]
    bounds the number of iterations. *)
Fixpoint retry_loop (net : discord) (ds : delivery_settings)
    (codes : list stock_row) (max_attempts : Z) (rounds : nat)
    (attempts : Z) (last_error : option string) (method : option string)
    : delivering retry_outcome := fun h =>
  if attempts <? max_attempts
  then
    match rounds with
    | O => (unfinished, h)
    | S rounds' =>
        let attempts := attempts + 1 in
        let method := DELIVERY_METHOD ds in
        let '(result, h1) := dispatch net method codes h in
        if d_success result
        then (reported {| t_success := true; t_attempts := attempts;
                          t_method := d_method result; t_error := None |},
              h1)
        else
          let last_error := d_error result in
          let h2 := if attempts <? max_attempts
                    then (h1 ++ [slept (attempts * 5)])%list
                    else h1 in
          retry_loop net ds codes max_attempts rounds' attempts last_error
            (Some method) h2
    end
  else
    match method with
    | None => (unbound_method, h)
    | Some method =>
        (reported {| t_success := false; t_attempts := attempts;
                     t_method := method; t_error := last_error |},
         (h ++ [recorded_failed method last_error])%list)
    end.

(** [deliver_with_retry(bot, user_id, order_number, codes, max_attempts)];
    the loop is given as many rounds as it can use. *)
Definition deliver_with_retry (net : discord) (ds : delivery_settings)
    (codes : list stock_row) (max_attempts : option Z)
    : delivering retry_outcome :=
  let max_attempts := default (DELIVERY_RETRY_ATTEMPTS ds) max_attempts in
  retry_loop net ds codes max_attempts (Z.to_nat max_attempts) 0 None None.


(** The senders a history awaited. *)
Definition senders (h : list delivery_event) : list string :=
  omap (fun e => match e with awaited s => Some s | _ => None end) h.


(** Nothing gets through. *)
Definition offline : discord := fun sender _ =>
  {| d_success := false; d_method := sender; d_error := Some "unreachable" |}.

(** Only the third call of a sender gets through. *)
Definition third_time_lucky : discord := fun sender h =>
  {| d_success := bool_decide (List.length (senders h) = 2%nat);
     d_method := sender;
     d_error := if bool_decide (List.length (senders h) = 2%nat)
                then None else Some "timeout" |}.

(** Direct messages are closed; files and the channel work. *)
Definition dm_closed : discord := fun sender _ =>
  {| d_success := negb (String.eqb sender "dm"); d_method := sender;
     d_error := if String.eqb sender "dm"
                then Some "User has DMs disabled. Cannot send codes."
                else None |}.

(** * Properties *)

(** ** The Python helpers on examples *)

Example strip_example : Py.strip "  AB-12 " = "AB-12".
Proof. reflexivity. Qed.

Example split_example :
  Py.split "-"%char "TOPUP-42-20240101000000" = ["TOPUP"; "42"; "20240101000000"].
Proof. reflexivity. Qed.

Example int_examples :
  Py.int "42" = Some 42 /\ Py.int " +1_000 " = Some 1000 /\
  Py.int "" = None /\ Py.int "4x" = None /\ Py.int "50000.00" = None.
Proof. repeat split. Qed.

(** The file separator (28) is white space for [str.strip] and not for
    [int]. *)
Example separator_in_order_id :
  encoded_user ("TOPUP-" +:+ String "028" "42" +:+ String "031" "-1") = None
  /\ encoded_user "TOPUP- 42 -1" = Some 42.
Proof. repeat split. Qed.

Example int_keeps_separators :
  Py.strip (String "028" "42") = "42" /\ Py.int (String "028" "42") = None
  /\ Py.int (String "009" "42") = Some 42.
Proof. repeat split. Qed.

(** Unfolds the sequencing of [io] computations. *)
Ltac io_unfold :=
  unfold mbind, mret, io_bind, io_ret, log, call_handler, interleave in *.

(** ** The storage primitives *)

Lemma find_order_updated oid s ds (rows : list order_row) :
  List.find (fun o => order_id o =? oid)
    (map (fun o => if order_id o =? oid then set_order_status s ds o else o) rows)
  = set_order_status s ds <$> List.find (fun o => order_id o =? oid) rows.
Proof.
  induction rows as [|o rows IH]; simpl; [reflexivity|].
  destruct (order_id o =? oid) eqn:E; simpl; rewrite E; auto.
Qed.

Lemma update_order_status_found oid s ds w o :
  find_order oid w = Some o ->
  find_order oid (snd (update_order_status oid s ds w))
  = Some (set_order_status s ds o).
Proof.
  unfold find_order, get_order_by_id, update_order_status. simpl.
  intros H. rewrite find_order_updated, H. reflexivity.
Qed.

(** ** The scenarios of section 8 of the specification *)

Example scenario_purchase :
  let '(r, w) := create_new_order default_config quiet 42 "5_codes" "balance" (shop 5) in
  let '(p, w') := process_order default_config (Some always_delivers) 1 w in
  c_success r = true /\ balance_of 42 w = 30000 /\
  map state_of (stock w) = [Reserved 1; Reserved 1; Reserved 1; Reserved 1; Reserved 1] /\
  p_success p = true /\ (status <$> find_order 1 w') = Some completed /\
  map state_of (stock w') = [Consumed; Consumed; Consumed; Consumed; Consumed].
Proof. vm_compute. repeat split. Qed.

Example scenario_short_stock :
  let '(r, w) := create_new_order default_config quiet 42 "5_codes" "balance" (shop 3) in
  c_error r = Some (insufficient_stock 5 3) /\ balance_of 42 w = 100000.
Proof. vm_compute. repeat split. Qed.

(** ** process_order *)

Lemma get_order_by_id_eq oid w : get_order_by_id oid w = (find_order oid w, w).
Proof. reflexivity. Qed.

Lemma get_reserved_codes_eq oid w :
  get_reserved_codes oid w = (reserved_codes oid w, w).
Proof. reflexivity. Qed.

(** C8. An order that is already completed: [process_order] answers
    success with delivered true at once; the handler is not called and
    nothing in the world (order, stock, balances, log) changes. *)
Theorem process_order_completed_is_noop cfg handler oid o w :
  find_order oid w = Some o ->
  status o = completed ->
  process_order cfg handler oid w
  = ({| p_success := true; p_delivered := true; p_error := None;
        p_manual_delivery_required := false; p_retry_possible := false |}, w).
Proof.
  intros Hfind Hdone. unfold process_order. io_unfold.
  rewrite get_order_by_id_eq, Hfind, Hdone. reflexivity.
Qed.

Lemma process_order_completed_is_noop_witness :
  process_order default_config (Some crashes) 1 shop_after_delivery
  = ({| p_success := true; p_delivered := true; p_error := None;
        p_manual_delivery_required := false; p_retry_possible := false |},
     shop_after_delivery).
Proof.
  apply (process_order_completed_is_noop default_config (Some crashes) 1
           (set_order_status completed (Some "delivered")
              {| order_id := 1; order_number := "ORD-42-20240101000000-1234";
                 user_id := 42; package_type := "5_codes"; code_quantity := 5;
                 total_price := 70000; payment_method := "balance";
                 status := pending; delivery_status := None |})).
  - vm_compute. reflexivity.
  - reflexivity.
Defined.

(** The warning about a quantity mismatch is not in the way: the counts
    agree, or warnings are disabled. *)
Lemma warning_passes cfg (codes : list stock_row) (expected : Z) :
  Z.of_nat (List.length codes) = expected \/ isEnabledFor cfg WARNING = false ->
  negb (Z.of_nat (List.length codes) =? expected) && isEnabledFor cfg WARNING
  = false.
Proof.
  intros [-> | ->]; [rewrite Z.eqb_refl; reflexivity | apply andb_false_r].
Qed.

(** C6. When the delivery of a not yet completed order is invoked (the
    order holds at least one code, and as many as its quantity unless
    warnings are disabled) and fails (the handler returns without
    success, or raises), [process_order] leaves the order pending with
    delivery status [delivery_failed], changes no stock row and no
    balance, and reports the failure as retryable. *)
Theorem process_order_delivery_failure cfg h oid o w :
  find_order oid w = Some o ->
  status o <> completed ->
  reserved_codes oid w <> [] ->
  (Z.of_nat (List.length (reserved_codes oid w)) = code_quantity o
   \/ isEnabledFor cfg WARNING = false) ->
  AUTO_DELIVERY_ENABLED cfg = true ->
  (h (delivery_of o (reserved_codes oid w)) = returns false
   \/ h (delivery_of o (reserved_codes oid w)) = raises) ->
  let '(r, w') := process_order cfg (Some h) oid w in
  find_order oid w' = Some (set_order_status pending (Some "delivery_failed") o)
  /\ stock w' = stock w
  /\ users w' = users w
  /\ delivered w' = (delivered w ++ [delivery_of o (reserved_codes oid w)])%list
  /\ r = {| p_success := false; p_delivered := false;
            p_error := Some "Delivery failed";
            p_manual_delivery_required := false; p_retry_possible := true |}.
Proof.
  intros Hfind Hopen Hcodes Hcount Hauto Hfail.
  apply warning_passes in Hcount.
  unfold process_order. io_unfold.
  rewrite get_order_by_id_eq, Hfind.
  rewrite bool_decide_eq_false_2 by assumption.
  rewrite get_reserved_codes_eq.
  destruct (reserved_codes oid w) as [|c codes] eqn:Ecodes; [congruence|].
  rewrite Hcount, Hauto. unfold delivery_of in Hfail.
  destruct Hfail as [-> | ->]; cbn -[find_order];
    (split; [apply update_order_status_found; exact Hfind | auto]).
Qed.

Lemma process_order_delivery_failure_witness :
  let '(r, w') := process_order default_config (Some crashes) 1 shop_with_order in
  find_order 1 w'
  = Some {| order_id := 1; order_number := "ORD-42-20240101000000-1234";
            user_id := 42; package_type := "5_codes"; code_quantity := 5;
            total_price := 70000; payment_method := "balance";
            status := pending; delivery_status := Some "delivery_failed" |}
  /\ stock w' = stock shop_with_order
  /\ users w' = users shop_with_order
  /\ delivered w'
     = (delivered shop_with_order
        ++ [delivery_of
              {| order_id := 1; order_number := "ORD-42-20240101000000-1234";
                 user_id := 42; package_type := "5_codes"; code_quantity := 5;
                 total_price := 70000; payment_method := "balance";
                 status := pending; delivery_status := None |}
              (reserved_codes 1 shop_with_order)])%list
  /\ r = {| p_success := false; p_delivered := false;
            p_error := Some "Delivery failed";
            p_manual_delivery_required := false; p_retry_possible := true |}.
Proof.
  apply (process_order_delivery_failure default_config crashes 1
           {| order_id := 1; order_number := "ORD-42-20240101000000-1234";
              user_id := 42; package_type := "5_codes"; code_quantity := 5;
              total_price := 70000; payment_method := "balance";
              status := pending; delivery_status := None |} shop_with_order).
  - vm_compute. reflexivity.
  - discriminate.
  - vm_compute. discriminate.
  - left. vm_compute. reflexivity.
  - reflexivity.
  - right. reflexivity.
Defined.

(** C5 fails on the code. The order of [shop_with_partial_order] exists,
    is not completed and holds three codes for a quantity of five: at the
    default log level the call that should warn raises, so
    [process_order] calls no handler, writes no status and answers
    "Processing failed: ...".  The order of [shop_with_failed_order]
    holds no code for a quantity of one: [process_order] marks it failed
    with [no_codes], again without calling the handler. *)
Theorem process_order_mismatch_is_fatal :
  let w := shop_with_partial_order in
  let v := shop_with_failed_order in
  let '(r, w') := process_order default_config (Some always_delivers) 1 w in
  let '(r0, v') := process_order default_config (Some always_delivers) 1 v in
  ((status <$> find_order 1 w) = Some failed
   /\ (code_quantity <$> find_order 1 w) = Some 5
   /\ List.length (reserved_codes 1 w) = 3%nat
   /\ p_success r = false
   /\ p_delivered r = false
   /\ (exists detail, p_error r = Some ("Processing failed: " +:+ detail))
   /\ delivered w' = []
   /\ orders w' = orders w
   /\ stock w' = stock w)
  /\ ((status <$> find_order 1 v) = Some failed
      /\ (code_quantity <$> find_order 1 v) = Some 1
      /\ reserved_codes 1 v = []
      /\ p_success r0 = false
      /\ p_error r0 = Some "No codes reserved for this order"
      /\ delivered v' = []
      /\ (status <$> find_order 1 v') = Some failed
      /\ (find_order 1 v' ≫= delivery_status) = Some "no_codes").
Proof.
  vm_compute. repeat split.
  exists (unexpected_keyword "order_id"). vm_compute. reflexivity.
Qed.

(** ** Terminal states *)


(** A cancelled order cannot be cancelled again. *)
Lemma cancelled_order_not_cancelled_again cfg oid refund o w :
  find_order oid w = Some o ->
  status o = cancelled ->
  snd (cancel_order cfg oid refund w) = w.
Proof.
  intros Hfind Hdone. unfold cancel_order. io_unfold.
  destruct (ENABLE_ORDER_CANCELLATION cfg); [|reflexivity]. cbn [negb].
  rewrite get_order_by_id_eq, Hfind, Hdone. reflexivity.
Qed.

(** [process_order] tests for [completed] only: on a cancelled order,
    whose reservation [cancel_order] has released, it takes the
    no-codes branch and rewrites the status. *)
Lemma process_order_reopens_cancelled cfg handler oid o w :
  find_order oid w = Some o ->
  status o = cancelled ->
  reserved_codes oid w = [] ->
  find_order oid (snd (process_order cfg handler oid w))
  = Some (set_order_status failed (Some "no_codes") o).
Proof.
  intros Hfind Hcancelled Hnone. unfold process_order. io_unfold.
  rewrite get_order_by_id_eq, Hfind, Hcancelled.
  rewrite bool_decide_eq_false_2 by discriminate.
  rewrite get_reserved_codes_eq, Hnone. cbn -[find_order].
  apply (update_order_status_found oid failed (Some "no_codes")).
  exact Hfind.
Qed.

(** C3 fails on the code for Cancelled. The order of [shop_with_order] is
    cancelled with refund; [process_order] then turns its status from
    cancelled to failed, so does [retry_order_delivery], and a second
    [cancel_order] afterwards cancels it again and refunds the price a
    second time. *)
Theorem cancelled_order_is_not_final :
  let '(x, w1) := cancel_order default_config 1 true shop_with_order in
  let '(p, w2) := process_order default_config (Some always_delivers) 1 w1 in
  let '(_, w2') := retry_order_delivery default_config always_delivers 1 w1 in
  let '(x', w3) := cancel_order default_config 1 true w2 in
  (status <$> find_order 1 w1) = Some cancelled
  /\ balance_of 42 w1 = 100000
  /\ (status <$> find_order 1 w2) = Some failed
  /\ (find_order 1 w2 ≫= delivery_status) = Some "no_codes"
  /\ (status <$> find_order 1 w2') = Some failed
  /\ (status <$> find_order 1 w3) = Some cancelled
  /\ balance_of 42 w3 = 170000.
Proof. vm_compute. repeat split. Qed.

(** ** create_new_order: the reservation falls short *)

Lemma validate_order_request_reads_only cfg user pkg w :
  snd (validate_order_request cfg user pkg w) = w.
Proof.
  unfold validate_order_request. io_unfold.
  destruct (get_package_info cfg pkg) as [info|]; [|reflexivity].
  destruct (MAX_CODES_PER_ORDER cfg <? quantity info); [reflexivity|].
  cbn. destruct (_ <? price info); [reflexivity|].
  destruct (_ <? quantity info); reflexivity.
Qed.

(** Every id [reserve_rows] returns names a row it has flipped to
    Reserved for the order. *)
Lemma reserve_rows_reserved oid ctype rows : forall n ids rows',
  reserve_rows oid ctype n rows = (ids, rows') ->
  forall i, In i ids ->
  exists r, In r rows' /\ stock_id r = i /\ state_of r = Reserved oid.
Proof.
  induction rows as [|r rows IH]; intros n ids rows' Hres i Hin.
  - simpl in Hres. inversion Hres; subst. destruct Hin.
  - destruct n as [|k].
    + simpl in Hres. inversion Hres; subst. destruct Hin.
    + simpl in Hres. destruct (is_free ctype r) eqn:Hfree.
      * destruct (reserve_rows oid ctype k rows) as [ids0 rows0] eqn:Hrec.
        inversion Hres; subst. destruct Hin as [<- | Hin].
        -- exists (set_reserved (Some oid) r). split; [left; reflexivity|].
           split; [reflexivity|]. unfold state_of, is_free in *. simpl.
           destruct (is_available r); [reflexivity | discriminate].
        -- destruct (IH k ids0 rows0 Hrec i Hin) as (r' & Hr' & Hid & Hst).
           exists r'. split; [right; exact Hr' | auto].
      * destruct (reserve_rows oid ctype (S k) rows) as [ids0 rows0] eqn:Hrec.
        inversion Hres; subst.
        destruct (IH (S k) ids rows0 Hrec i Hin) as (r' & Hr' & Hid & Hst).
        exists r'. split; [right; exact Hr' | auto].
Qed.

Lemma find_order_appended oid (rows : list order_row) row :
  order_id row = oid ->
  is_Some (List.find (fun o => order_id o =? oid) (rows ++ [row])).
Proof.
  intros Hid. induction rows as [|o rows IH]; simpl.
  - rewrite Hid, Z.eqb_refl. eauto.
  - destruct (order_id o =? oid); eauto.
Qed.

Section shortfall.

Variables (cfg : config) (env : environment).
Variables (user : Z) (pkg method : string) (info : package) (w : world).

(** The world the debit sees, and the id the new order gets. *)
Let w1 : world := concurrent env w.
Let oid : Z := next_order_id w1.

Hypothesis package_known : get_package_info cfg pkg = Some info.
Hypothesis request_valid : valid (fst (validate_order_request cfg user pkg w)) = true.
Hypothesis debit_succeeds : fst (deduct_balance user (price info) w1) = true.
Hypothesis order_recorded : oid <> 0.
Hypothesis reservation_short :
  Z.of_nat (List.length (fst (reserve_stock_codes oid (quantity info) w1)))
  < quantity info.

(** The outcome of the call: the balances are those left by the debit
    followed by [add_balance], the stock is what the reservation left. *)
Lemma create_new_order_shortfall_outcome :
  exists orders',
    create_new_order cfg env user pkg method w
    = ({| c_success := false; c_order_id := Some oid;
          c_order_number := Some ("ORD-" +:+ pretty user +:+ "-" +:+ stamp env);
          c_error :=
            Some (reserve_failed
                    (Z.of_nat (List.length
                                 (fst (reserve_stock_codes oid (quantity info) w1))))
                    (quantity info)) |},
       {| users := users (snd (add_balance user (price info)
                                 (snd (deduct_balance user (price info) w1))));
          stock := stock (snd (reserve_stock_codes oid (quantity info) w1));
          orders := orders';
          topups := topups w1; next_stock_id := next_stock_id w1;
          next_order_id := oid + 1; logged := logged w1;
          delivered := delivered w1 |})
    /\ (exists o, List.find (fun o => order_id o =? oid) orders'
                  = Some (set_order_status failed (Some "stock_unavailable") o)).
Proof.
  unfold create_new_order. io_unfold.
  pose proof (validate_order_request_reads_only cfg user pkg w) as Hpure.
  destruct (validate_order_request cfg user pkg w) as [v w0].
  simpl in Hpure, request_valid. subst w0. rewrite request_valid. cbn [negb].
  rewrite package_known.
  unfold deduct_balance in *. fold w1.
  destruct (default 0 (users w1 !! user) <? price info) eqn:Hlow;
    [simpl in debit_succeeds; discriminate|].
  cbn [negb]. unfold create_order, with_users.
  cbn [users stock orders topups next_stock_id next_order_id logged delivered].
  change (next_order_id w1) with oid.
  apply Z.eqb_neq in order_recorded. rewrite order_recorded.
  unfold reserve_stock_codes in *. cbn [stock] in *.
  destruct (reserve_rows oid default_code_type (Z.to_nat (quantity info)) (stock w1))
    as [ids rows] eqn:Hres.
  cbn [fst snd] in *. apply Z.ltb_lt in reservation_short.
  rewrite reservation_short.
  unfold add_balance, update_order_status, with_users, with_orders.
  cbn [users stock orders topups next_stock_id next_order_id logged delivered
       fst snd with_stock].
  destruct (price info <=? 0) eqn:Hfree;
    unfold with_stock;
    cbn [users stock orders topups next_stock_id next_order_id logged delivered
         fst snd];
    (eexists; split; [reflexivity|]);
    rewrite find_order_updated;
    destruct (find_order_appended oid (orders w1)
                {| order_id := oid;
                   order_number := "ORD-" +:+ pretty user +:+ "-" +:+ stamp env;
                   user_id := user; package_type := pkg;
                   code_quantity := quantity info; total_price := price info;
                   payment_method := method; status := pending;
                   delivery_status := None |} eq_refl) as [o Ho];
    rewrite Ho; exists o; reflexivity.
Qed.

(** Giving back what was taken restores every balance. *)
Lemma refund_restores_balances u :
  0 <= price info ->
  balance_of u (snd (add_balance user (price info)
                       (snd (deduct_balance user (price info) w1))))
  = balance_of u w1.
Proof.
  intros Hprice. unfold balance_of, add_balance, deduct_balance in *.
  destruct (default 0 (users w1 !! user) <? price info) eqn:Hlow;
    [simpl in debit_succeeds; discriminate|].
  cbn [snd]. destruct (price info <=? 0) eqn:Hfree; cbn.
  - assert (price info = 0) as -> by lia.
    destruct (decide (u = user)) as [->|Hne].
    + rewrite lookup_insert_eq. simpl. lia.
    + rewrite lookup_insert_ne by congruence. reflexivity.
  - destruct (decide (u = user)) as [->|Hne].
    + rewrite !lookup_insert_eq. simpl. lia.
    + rewrite !lookup_insert_ne by congruence. reflexivity.
Qed.

(** C2. The debit succeeds and the reservation returns fewer codes than
    the package quantity: [create_new_order] returns an error, the order is
    marked failed with reason [stock_unavailable], the debited amount is
    given back through [add_balance], and every balance, the buyer's
    included, is what it was before the debit. *)
Theorem create_new_order_shortfall_refunds :
  0 <= price info ->
  let '(r, w') := create_new_order cfg env user pkg method w in
  c_success r = false
  /\ c_order_id r = Some oid
  /\ c_error r
     = Some (reserve_failed
               (Z.of_nat (List.length
                            (fst (reserve_stock_codes oid (quantity info) w1))))
               (quantity info))
  /\ (status <$> find_order oid w') = Some failed
  /\ (find_order oid w' ≫= delivery_status) = Some "stock_unavailable"
  /\ users w' = users (snd (add_balance user (price info)
                              (snd (deduct_balance user (price info) w1))))
  /\ (forall u, balance_of u w' = balance_of u w1).
Proof.
  intros Hprice.
  destruct create_new_order_shortfall_outcome as (orders' & -> & o & Hfind).
  unfold find_order, get_order_by_id. cbn [fst orders].
  rewrite Hfind. repeat split.
  intros u. rewrite <- (refund_restores_balances u Hprice). reflexivity.
Qed.

(** C9. In the same failing call, the codes the reservation did obtain
    stay Reserved for the order that is now failed: the stock table is
    exactly what the reservation left, no release follows. *)
Theorem create_new_order_shortfall_keeps_reservation :
  let '(r, w') := create_new_order cfg env user pkg method w in
  c_success r = false
  /\ (status <$> find_order oid w') = Some failed
  /\ stock w' = stock (snd (reserve_stock_codes oid (quantity info) w1))
  /\ (forall i, In i (fst (reserve_stock_codes oid (quantity info) w1)) ->
      exists row, In row (stock w') /\ stock_id row = i
                  /\ state_of row = Reserved oid).
Proof.
  destruct create_new_order_shortfall_outcome as (orders' & -> & o & Hfind).
  unfold find_order, get_order_by_id. cbn [fst orders stock].
  rewrite Hfind. repeat split.
  intros i Hin. unfold reserve_stock_codes in *.
  destruct (reserve_rows oid default_code_type (Z.to_nat (quantity info)) (stock w1))
    as [ids rows] eqn:Hres.
  cbn [fst snd stock with_stock] in *.
  exact (reserve_rows_reserved _ _ _ _ _ _ Hres i Hin).
Qed.

End shortfall.

Lemma create_new_order_shortfall_refunds_witness :
  let '(r, w') := create_new_order default_config rival 42 "5_codes" "balance" (shop 5) in
  c_success r = false
  /\ c_order_id r = Some 1
  /\ c_error r = Some (reserve_failed 3 5)
  /\ (status <$> find_order 1 w') = Some failed
  /\ (find_order 1 w' ≫= delivery_status) = Some "stock_unavailable"
  /\ users w' = users (snd (add_balance 42 70000
                              (snd (deduct_balance 42 70000
                                      (concurrent rival (shop 5))))))
  /\ (forall u, balance_of u w' = balance_of u (concurrent rival (shop 5))).
Proof.
  apply (create_new_order_shortfall_refunds default_config rival 42 "5_codes"
           "balance" {| quantity := 5; price := 70000; label := "5 Codes" |}
           (shop 5)).
  - vm_compute. reflexivity.
  - vm_compute. reflexivity.
  - vm_compute. reflexivity.
  - vm_compute. discriminate.
  - vm_compute. reflexivity.
  - vm_compute. discriminate.
Defined.

Lemma create_new_order_shortfall_keeps_reservation_witness :
  let '(r, w') := create_new_order default_config rival 42 "5_codes" "balance" (shop 5) in
  c_success r = false
  /\ (status <$> find_order 1 w') = Some failed
  /\ stock w' = stock (snd (reserve_stock_codes 1 5 (concurrent rival (shop 5))))
  /\ (forall i, In i [3; 4; 5] ->
      exists row, In row (stock w') /\ stock_id row = i
                  /\ state_of row = Reserved 1).
Proof.
  apply (create_new_order_shortfall_keeps_reservation default_config rival 42
           "5_codes" "balance"
           {| quantity := 5; price := 70000; label := "5 Codes" |} (shop 5)).
  - vm_compute. reflexivity.
  - vm_compute. reflexivity.
  - vm_compute. reflexivity.
  - vm_compute. discriminate.
  - vm_compute. reflexivity.
Defined.

(** ** handle_payment_success: one credit per top-up *)

Section topup.

Variables (oid : string) (amt : Z) (parsed_data : parsed_notification) (uid : Z).

Hypothesis is_topup : Py.startswith oid "TOPUP-" = true.
Hypothesis names_user : encoded_user oid = Some uid.

(** A delivery for a top-up that is already marked success only logs. *)
Lemma handle_payment_success_again w :
  topup_status_of oid w = Some topup_success ->
  exists w', handle_payment_success oid amt parsed_data w = (true, w')
             /\ users w' = users w /\ topups w' = topups w.
Proof.
  intros Hdone. unfold handle_payment_success. io_unfold.
  unfold encoded_user in names_user.
  destruct (Z.of_nat (List.length (Py.split "-" oid)) <? 3); [discriminate|].
  rewrite names_user, is_topup.
  unfold topup_status_of in Hdone. unfold select_topup_status in *.
  cbn [fst] in Hdone. rewrite Hdone.
  rewrite bool_decide_eq_true_2 by reflexivity.
  eexists. split; [reflexivity|]. split; reflexivity.
Qed.

(** A delivery for a top-up not yet marked success credits the amount
    and marks it. *)
Lemma handle_payment_success_first w :
  0 < amt ->
  topup_status_of oid w <> Some topup_success ->
  exists w', handle_payment_success oid amt parsed_data w = (true, w')
             /\ users w' = <[uid := balance_of uid w + amt]> (users w)
             /\ topup_status_of oid w' = Some topup_success.
Proof.
  intros Hpos Hnew. unfold handle_payment_success. io_unfold.
  unfold encoded_user in names_user.
  destruct (Z.of_nat (List.length (Py.split "-" oid)) <? 3); [discriminate|].
  rewrite names_user, is_topup.
  unfold topup_status_of in *. unfold select_topup_status in *.
  cbn [fst] in Hnew.
  rewrite bool_decide_eq_false_2 by exact Hnew.
  unfold create_topup, add_balance.
  apply Z.leb_gt in Hpos. rewrite Hpos.
  eexists. split; [reflexivity|]. split; [reflexivity|].
  cbn. rewrite lookup_alter_eq, lookup_insert_eq. reflexivity.
Qed.

Lemma deliveries_after_success n : forall w,
  topup_status_of oid w = Some topup_success ->
  let '(acks, w') := deliveries n oid amt parsed_data w in
  users w' = users w /\ topups w' = topups w /\ acks = replicate n true.
Proof.
  induction n as [|k IH]; intros w Hdone.
  - simpl. auto.
  - cbn [deliveries]. io_unfold.
    destruct (handle_payment_success_again w Hdone) as (w1 & -> & Hu & Ht).
    assert (Hdone1 : topup_status_of oid w1 = Some topup_success).
    { unfold topup_status_of, select_topup_status in *. cbn [fst] in *.
      rewrite Ht. exact Hdone. }
    specialize (IH w1 Hdone1).
    destruct (deliveries k oid amt parsed_data w1) as [acks w'].
    destruct IH as (Hu' & Ht' & ->).
    repeat split; congruence.
Qed.

(** C1. [n >= 1] deliveries of the same success notification for a
    top-up that is not yet marked success: the balance of the user named
    in the order id grows by [amt] exactly once and the top-up ends as
    success; that is the work of the first delivery, after which no
    delivery changes a balance or a top-up row; every delivery is
    acknowledged. *)
Theorem idempotent_credit (n : nat) (w : world) :
  (1 <= n)%nat ->
  0 < amt ->
  topup_status_of oid w <> Some topup_success ->
  let w1 := snd (handle_payment_success oid amt parsed_data w) in
  let '(acks, w') := deliveries n oid amt parsed_data w in
  balance_of uid w' = balance_of uid w + amt
  /\ (forall u, u <> uid -> balance_of u w' = balance_of u w)
  /\ topup_status_of oid w' = Some topup_success
  /\ topup_status_of oid w1 = Some topup_success
  /\ users w' = users w1
  /\ topups w' = topups w1
  /\ acks = replicate n true.
Proof.
  intros Hn Hpos Hnew.
  destruct n as [|k]; [lia|].
  cbn [deliveries]. io_unfold.
  destruct (handle_payment_success_first w Hpos Hnew) as (w1 & -> & Hu & Hdone).
  cbn [snd].
  pose proof (deliveries_after_success k w1 Hdone) as Hrest.
  destruct (deliveries k oid amt parsed_data w1) as [acks w'].
  destruct Hrest as (Hu' & Ht' & ->).
  assert (Hstatus : topup_status_of oid w' = Some topup_success).
  { unfold topup_status_of, select_topup_status in *. cbn [fst] in *.
    rewrite Ht'. exact Hdone. }
  unfold balance_of. rewrite Hu', Hu.
  repeat split; auto.
  - rewrite lookup_insert_eq. reflexivity.
  - intros u Hne. rewrite lookup_insert_ne by congruence. reflexivity.
Qed.

End topup.

Lemma idempotent_credit_witness :
  let w := shop 0 in
  let w1 := snd (handle_payment_success "TOPUP-42-20240101000000" 50000 paid_50000 w) in
  let '(acks, w') := deliveries 2 "TOPUP-42-20240101000000" 50000 paid_50000 w in
  balance_of 42 w' = balance_of 42 w + 50000
  /\ (forall u, u <> 42 -> balance_of u w' = balance_of u w)
  /\ topup_status_of "TOPUP-42-20240101000000" w' = Some topup_success
  /\ topup_status_of "TOPUP-42-20240101000000" w1 = Some topup_success
  /\ users w' = users w1
  /\ topups w' = topups w1
  /\ acks = replicate 2 true.
Proof.
  apply (idempotent_credit "TOPUP-42-20240101000000" 50000 paid_50000 42).
  - reflexivity.
  - reflexivity.
  - lia.
  - lia.
  - vm_compute. discriminate.
Defined.

Example scenario_double_delivery :
  let '(acks, w') :=
    deliveries 2 "TOPUP-42-20240101000000" 50000 paid_50000 (shop 0) in
  acks = [true; true] /\ balance_of 42 w' = 150000
  /\ topup_status_of "TOPUP-42-20240101000000" w' = Some topup_success.
Proof. vm_compute. repeat split. Qed.

(** ** The same guarantee at the endpoint *)

Section endpoint.

Variables (sha512 : string -> string) (cfg : config) (n : notification).
Variables (amt uid : Z).

Let parsed : parsed_notification :=
  parse_webhook_notification sha512 n (MIDTRANS_SERVER_KEY cfg).

Hypothesis verifies : parsed_valid parsed = true.
Hypothesis paid : parsed_status parsed = payment_success.
Hypothesis gross : Py.int (parsed_gross_amount parsed) = Some amt.
Hypothesis is_topup : Py.startswith (parsed_order_id parsed) "TOPUP-" = true.
Hypothesis names_user : encoded_user (parsed_order_id parsed) = Some uid.




End endpoint.

(** ** midtrans_webhook: the status code of the answer *)

(** C4, as stated, fails: a body that parses as a JSON object but does
    not verify is answered with HTTP 400, whatever the digest function,
    and nothing is credited. *)
Lemma unverified_notification_answers_400 :
  unsigned_notification <> ∅
  /\ (forall sha512,
        let '(r, w') := midtrans_webhook sha512 default_config
                          (get_json_object unsigned_notification) (shop 0) in
        r = {| http_code := 400; body_status := "error";
               body_message := "Invalid signature or missing fields" |}
        /\ users w' = users (shop 0) /\ topups w' = topups (shop 0)).
Proof.
  split; [vm_compute; discriminate|].
  intros sha512. vm_compute. repeat split.
Qed.

(** C4, amended. The endpoint always answers with a [{status, message}]
    body and HTTP 200 or 400.  It answers 400 exactly when
    [request.get_json()] returned no data or the notification does not
    verify (missing field or signature mismatch), and then with status
    [error]; every other request is answered with 200, also when handling
    it raised (an exception out of [get_json] itself, an amount that is
    not an integer literal). *)
Theorem midtrans_webhook_status_code sha512 cfg request w :
  let r := fst (midtrans_webhook sha512 cfg request w) in
  (http_code r = 200 \/ http_code r = 400)
  /\ (http_code r = 400 <->
      no_data request = true \/ does_not_verify sha512 cfg request = true)
  /\ (http_code r = 400 -> body_status r = "error")
  /\ (request = get_json_raises ->
      r = {| http_code := 200; body_status := "error";
             body_message := "Internal server error" |}).
Proof.
  unfold midtrans_webhook, no_data, does_not_verify. io_unfold.
  destruct request as [| |n]; cbn.
  - repeat split; auto; intros; try discriminate.
    destruct H; discriminate.
  - repeat split; auto; intros; discriminate.
  - destruct (bool_decide (n = ∅)); cbn.
    + repeat split; auto; intros; discriminate.
    + destruct (parsed_valid _); cbn.
      * destruct (Py.int _) as [gross|]; cbn.
        -- destruct (parsed_status _); cbn;
             try (destruct (handle_payment_success _ _ _ _) as [ack w']);
             cbn; repeat split; auto; intros; try discriminate;
             destruct H; discriminate.
        -- repeat split; auto; intros; try discriminate.
           destruct H; discriminate.
      * repeat split; auto; intros; discriminate.
Qed.

(** ** add_single_code *)


(** C7 fails on the code for the upper bound. A payload of 501 characters
    is invalid for [validate_stock_code], yet [add_single_code], which
    repeats that function's first two tests only, stores it and reports
    success. *)
Theorem add_single_code_accepts_long_code :
  let payload := Py.repeat_char "A" 501 in
  let '(r, w') := add_single_code default_config no_cipher payload "redfinger"
                    (Some 1) empty_world in
  Py.len (Py.strip payload) = 501
  /\ validate_stock_code payload
     = {| code_valid := false;
          code_error := Some "Code too long (max 500 characters)" |}
  /\ r = {| a_success := true; a_stock_id := Some 1; a_error := None |}
  /\ map code (stock w') = [payload]
  /\ stock empty_world = [].
Proof. vm_compute. repeat split. Qed.

Lemma encrypt_fallback cfg self payload w :
  encryption_fails self payload ->
  fst (encrypt cfg self payload w) = payload.
Proof.
  unfold encryption_fails, encrypt. io_unfold.
  destruct (fernet self) as [cipher|]; [|reflexivity].
  intros ->. destruct (ENCRYPT_STOCK_CODES cfg); reflexivity.
Qed.

(** C10. With [ENCRYPT_STOCK_CODES] on, every code that is added gets a
    row flagged [is_encrypted], whatever the cipher did; when encryption
    fails the row holds the trimmed plaintext under that flag. *)
Theorem encrypted_flag_follows_configuration
    cfg encryptor payload ctype by_user w r w' :
  ENCRYPT_STOCK_CODES cfg = true ->
  add_single_code cfg encryptor payload ctype by_user w = (r, w') ->
  a_success r = true ->
  exists row,
    stock w' = (stock w ++ [row])%list
    /\ a_stock_id r = Some (stock_id row)
    /\ is_encrypted row = true
    /\ code row = fst (encrypt cfg encryptor (Py.strip payload) w)
    /\ (encryption_fails encryptor (Py.strip payload) ->
        code row = Py.strip payload).
Proof.
  intros Hon Hrun Hok. unfold add_single_code in Hrun. io_unfold.
  destruct (String.eqb (Py.strip payload) "");
    [inversion Hrun; subst; discriminate|].
  destruct (Py.len (Py.strip payload) <? 5);
    [inversion Hrun; subst; discriminate|].
  rewrite Hon in Hrun.
  pose proof (encrypt_fallback cfg encryptor (Py.strip payload) w) as Hfall.
  destruct (encrypt cfg encryptor (Py.strip payload) w) as [token w0] eqn:Henc.
  assert (Hstock : stock w0 = stock w).
  { unfold encrypt in Henc. io_unfold.
    destruct (fernet encryptor) as [cipher|]; [|inversion Henc; reflexivity].
    destruct (ENCRYPT_STOCK_CODES cfg); cbn in Henc;
      [|inversion Henc; reflexivity].
    destruct (cipher _); inversion Henc; reflexivity. }
  unfold add_stock_code in Hrun. cbn -[Z.eqb] in Hrun.
  destruct (next_stock_id w0 =? 0); cbn in Hrun;
    inversion Hrun; subst; [discriminate|].
  eexists. cbn [stock a_stock_id]. rewrite Hstock.
  split; [reflexivity|]. cbn. repeat split. exact Hfall.
Qed.

Lemma encrypted_flag_follows_configuration_witness :
  exists row,
    stock (snd (add_single_code default_config broken_cipher " RF-12345 "
                  "redfinger" (Some 1) empty_world))
    = (stock empty_world ++ [row])%list
    /\ Some 1 = Some (stock_id row)
    /\ is_encrypted row = true
    /\ code row = "RF-12345"
    /\ (encryption_fails broken_cipher (Py.strip " RF-12345 ") ->
        code row = Py.strip " RF-12345 ").
Proof.
  apply (encrypted_flag_follows_configuration default_config broken_cipher
           " RF-12345 " "redfinger" (Some 1) empty_world
           {| a_success := true; a_stock_id := Some 1; a_error := None |}).
  - reflexivity.
  - vm_compute. reflexivity.
  - reflexivity.
Defined.

(** * Further properties of the embedded code *)

(** ** validate_order_request and create_new_order *)





(** *** A creation that goes through *)







(** ** cancel_order *)





(** *** Creating and then cancelling an order *)






(** ** process_order: the other branches *)












(** ** process_pending_orders *)




(** ** add_single_code and validate_stock_code *)

(** A payload that is blank or shorter than five characters once
    trimmed is refused, with the reason "Empty code" for a blank one and
    "Code too short" otherwise; nothing is stored, encrypted or logged:
    the world is left as it was. *)
Theorem add_single_code_refuses_short cfg encryptor payload ctype by_user w :
  Py.len (Py.strip payload) < 5 ->
  add_single_code cfg encryptor payload ctype by_user w
  = ({| a_success := false; a_stock_id := None;
        a_error := Some (if String.eqb (Py.strip payload) ""
                         then "Empty code" else "Code too short") |}, w).
Proof.
  intros Hshort. unfold add_single_code. io_unfold.
  destruct (String.eqb (Py.strip payload) ""); [reflexivity|].
  apply Z.ltb_lt in Hshort. rewrite Hshort. reflexivity.
Qed.

Lemma add_single_code_refuses_short_witness :
  add_single_code default_config no_cipher "  AB1  " "redfinger" (Some 1) (shop 2)
  = ({| a_success := false; a_stock_id := None; a_error := Some "Code too short" |},
     shop 2).
Proof.
  apply (add_single_code_refuses_short default_config no_cipher "  AB1  "
           "redfinger" (Some 1) (shop 2)).
  vm_compute. reflexivity.
Defined.








(** ** add_bulk_codes and add_codes_from_text *)







(** *** The lines of an uploaded file *)









(** ** Stock ids stay distinct *)









(** ** mask_sensitive *)




Lemma string_drop_0 s : string_drop 0 s = s.
Proof. destruct s; reflexivity. Qed.



(** ** encrypt, decrypt and reading codes back *)








(** ** get_stock_summary and get_detailed_stock_stats *)





(** ** Order ids: printing and parsing *)
















(** ** The webhook: when a balance can move *)





(** ** The trigger's notifications, delivered to the endpoint *)









(** ** bot.py: a confirmed purchase *)










(** ** delivery_handler.py: the choice of a sender and the retry loop *)










Example scenario_third_attempt_delivers :
  deliver_with_retry third_time_lucky default_delivery_settings [] None []
  = (reported {| t_success := true; t_attempts := 3; t_method := "dm";
                 t_error := None |},
     [awaited "dm"; slept 5; awaited "dm"; slept 10; awaited "dm"]).
Proof. vm_compute. reflexivity. Qed.

Example scenario_closed_dms :
  smart_delivery dm_closed [] []
  = ({| d_success := true; d_method := "file"; d_error := None |},
     [awaited "dm"; awaited "file"]).
Proof. vm_compute. reflexivity. Qed.

Example scenario_no_attempt_allowed :
  deliver_with_retry offline default_delivery_settings [] (Some 0) []
  = (unbound_method, []).
Proof. vm_compute. reflexivity. Qed.

(** ** get_available_codes: the codes behind the available count *)




